(** * Content optimization pipeline of shopify_middleware

    A shallow embedding of the service layer of the [shopifyapp] package
    ([services/seo_service.py], [services/product_service.py],
    [services/prompt_service.py], [models/prompt.py], [models/product.py])
    together with the properties the specification states about it.

    Python objects are attribute maps, request payloads and JSON columns are
    Python values, and the services run in a state-and-exception monad over a
    world made of the SQLAlchemy unit of work (the committed rows and the
    session's view of them) and one counter per external collaborator.  The
    collaborators (Jinja2, the Gemini provider, the Shopify HTTP API, the
    clock, the database driver) are an interface, [Env]: every property
    holds for every behaviour of theirs.

    Left out, as nothing the services decide depends on them: the calls to
    the logger and to [print], [genai.configure] and the construction of the
    model object, and the timestamps that the database layer maintains by
    itself ([created_at], [updated_at]). *)

From Stdlib Require Import ZArith String Ascii List Lia Bool.
From stdpp Require Import base strings gmap list pretty.
Import ListNotations.

Set Warnings "-register-all".

Open Scope Z_scope.
Open Scope string_scope.
Open Scope list_scope.

(** ** Python values *)

Module Py.

(** The values that travel through the services: JSON request payloads, JSON
    columns, column values and [datetime] objects. *)
Inductive pyval : Type :=
| VNone
| VBool (b : bool)
| VInt (z : Z)
| VStr (s : string)
| VDateTime (t : Z)
| VList (l : list pyval)
| VDict (d : gmap string pyval).

(** Python truthiness ([if x], [not x], [x or y]). *)
Definition truthy (v : pyval) : bool :=
  match v with
  | VNone => false
  | VBool b => b
  | VInt z => negb (Z.eqb z 0)
  | VStr s => negb (String.eqb s "")
  | VDateTime _ => true
  | VList l => match l with [] => false | _ => true end
  | VDict d => negb (Nat.eqb (size d) 0)
  end.

(** [a or b] *)
Definition py_or (a b : pyval) : pyval := if truthy a then a else b.

(** [d.get(k, dflt)] *)
Definition dict_get (d : gmap string pyval) (k : string) (dflt : pyval) : pyval :=
  default dflt (d !! k).

(** A dict literal, later keys overriding earlier ones. *)
Definition dict_of (kvs : list (string * pyval)) : gmap string pyval :=
  fold_left (fun m kv => <[kv.1 := kv.2]> m) kvs ∅.

(** [str.isspace] on the code points below 256; a character of a Rocq string
    stands for the code point of the same number. *)
Definition isspace (c : ascii) : bool :=
  let n := nat_of_ascii c in
  (Nat.leb 9 n && Nat.leb n 13) || (Nat.leb 28 n && Nat.leb n 32)
  || Nat.eqb n 133 || Nat.eqb n 160.

Fixpoint lstrip (s : string) : string :=
  match s with
  | String c s' => if isspace c then lstrip s' else s
  | EmptyString => EmptyString
  end.

Fixpoint rstrip (s : string) : string :=
  match s with
  | String c s' =>
      match rstrip s' with
      | EmptyString => if isspace c then EmptyString else String c EmptyString
      | r => String c r
      end
  | EmptyString => EmptyString
  end.

(** [s.strip()] *)
Definition strip (s : string) : string := rstrip (lstrip s).

(** [s.startswith(p)] *)
Definition startswith (p s : string) : bool := String.prefix p s.

(** Exceptions: the class matters only where a handler selects on it
    ([except requests.exceptions.RequestException]); [str(e)] is the
    message. *)
Inductive exn_class := PyException | RequestException.

Record exn := Exn { exn_cls : exn_class; exn_str : string }.

Inductive result (A : Type) : Type :=
| Ok (a : A)
| Raise (e : exn).
Arguments Ok {A} a.
Arguments Raise {A} e.

Definition error (msg : string) : exn := Exn PyException msg.

End Py.
Export Py.

(** ** The unit of work and the external collaborators *)

Module Orm.

(** A model instance: its primary key ([None] while transient) and the
    attributes set on it.  The services read and write attributes that the
    classes under [models/] do not all declare as columns ([Prompt.template],
    [Prompt.is_active], [Product.is_optimized], ...); an instance is
    therefore the map of the attributes it carries. *)
Record obj := Obj { obj_id : option Z; obj_attrs : gmap string pyval }.

(** Reading an attribute that was never set gives [None]. *)
Definition getattr (o : obj) (k : string) : pyval := dict_get (obj_attrs o) k VNone.

Definition setattr (o : obj) (k : string) (v : pyval) : obj :=
  Obj (obj_id o) (<[k := v]> (obj_attrs o)).

(** [o.id] *)
Definition id_of (o : obj) : pyval :=
  match obj_id o with Some i => VInt i | None => VNone end.

Definition has_id (i : Z) (o : obj) : bool :=
  match obj_id o with Some j => Z.eqb i j | None => false end.

(** Column comparisons of [filter_by]. *)
Definition attr_is_int (o : obj) (k : string) (z : Z) : bool :=
  match getattr o k with VInt y => Z.eqb y z | _ => false end.

Definition attr_is_true (o : obj) (k : string) : bool :=
  match getattr o k with VBool b => b | _ => false end.


Record DB := MkDB {
  stores : list obj;
  products : list obj;
  prompts : list obj
}.

(** What the pipeline does to the outside, in order. *)
Inductive event :=
| EvRender (template : obj) (context : gmap string pyval)
| EvGenerate (prompt_text : string).

(** The committed rows, the session's view of them (rows changed or added
    since the last commit included), one counter per external collaborator
    and the trace of render and generation calls. *)
Record World := MkWorld {
  committed : DB;
  session : DB;
  gen_calls : nat;
  clock_reads : nat;
  db_ops : nat;
  http_calls : nat;
  trace : list event
}.

(** The collaborators the services call.  Each answer depends on the
    arguments and, for the stateful ones, on how many calls went before. *)
Class Env := {
  (** [jinja2.Template(source)]: the error message when [source] does not
      compile. *)
  jinja2_Template : pyval -> option string;
  (** [template.render] on the context for a source that compiled. *)
  template_render : pyval -> gmap string pyval -> result string;
  (** [model.generate_content(prompt).text] at the n-th call. *)
  generate_content : nat -> string -> result string;
  (** [datetime.utcnow()] at the n-th reading. *)
  utcnow : nat -> Z;
  (** [dt.isoformat()] *)
  isoformat : Z -> string;
  (** [str(v)] inside an f-string, for a value that is not a [str]. *)
  py_repr : pyval -> string;
  (** [base.format(title=..., description=...)] *)
  str_format : string -> pyval -> pyval -> result string;
  (** [requests.put(url, json=..., headers=...)] at the n-th call: status
      code and body text. *)
  requests_put : nat -> string -> pyval -> pyval -> result (Z * string);
  (** The n-th round trip to the database fails with this message. *)
  db_fault : nat -> option string
}.

(** [str(v)], [f"{v}"] *)
Definition py_str `{Env} (v : pyval) : string :=
  match v with VStr s => s | _ => py_repr v end.

(** Computations: a result or an exception, and the world after. *)
Definition M (A : Type) : Type := World -> result A * World.

Definition ret {A} (a : A) : M A := fun w => (Ok a, w).

Definition bind {A B} (m : M A) (k : A -> M B) : M B :=
  fun w => match m w with
           | (Ok a, w') => k a w'
           | (Raise e, w') => (Raise e, w')
           end.

Definition raise {A} (e : exn) : M A := fun w => (Raise e, w).

(** [try: m  except Exception as e: h e] *)
Definition try_except {A} (m : M A) (h : exn -> M A) : M A :=
  fun w => match m w with
           | (Ok a, w') => (Ok a, w')
           | (Raise e, w') => h e w'
           end.

(** A pure call that may raise. *)
Definition lift {A} (r : result A) : M A := fun w => (r, w).

Definition emit (ev : event) : M unit :=
  fun w => (Ok tt, MkWorld (committed w) (session w) (gen_calls w) (clock_reads w)
                           (db_ops w) (http_calls w) (trace w ++ [ev])).

Definition set_session (d : DB) (w : World) : World :=
  MkWorld (committed w) d (gen_calls w) (clock_reads w) (db_ops w) (http_calls w) (trace w).

End Orm.
Export Orm.

Declare Scope py_scope.
Delimit Scope py_scope with py.
Notation "x <- m ;; k" := (bind m (fun x => k))
  (at level 100, m at next level, right associativity) : py_scope.
Notation "m ;;; k" := (bind m (fun _ => k))
  (at level 100, right associativity) : py_scope.
Open Scope py_scope.

(** *** Database operations *)

Module Db.

Inductive table := Stores | Products | Prompts.

Definition rows (t : table) (d : DB) : list obj :=
  match t with Stores => stores d | Products => products d | Prompts => prompts d end.

Definition set_rows (t : table) (l : list obj) (d : DB) : DB :=
  match t with
  | Stores => MkDB l (products d) (prompts d)
  | Products => MkDB (stores d) l (prompts d)
  | Prompts => MkDB (stores d) (products d) l
  end.

(** The next value of an autoincrement primary key. *)
Definition fresh_id (l : list obj) : Z :=
  1 + fold_right (fun o m => match obj_id o with Some i => Z.max i m | None => m end) 0 l.

(** Column defaults fill the attributes an instance does not carry when it
    is inserted. *)
Definition apply_defaults (dflts : list (string * pyval)) (a : gmap string pyval)
  : gmap string pyval :=
  fold_left (fun m kv => match m !! kv.1 with Some _ => m | None => <[kv.1 := kv.2]> m end)
            dflts a.

(** An attribute assignment on a persistent instance changes the session's
    row of the same key; on a transient instance it changes nothing stored. *)
Definition replace_row (o : obj) (l : list obj) : list obj :=
  match obj_id o with
  | Some i => map (fun r => if has_id i r then o else r) l
  | None => l
  end.

Section Ops.
Context `{Env}.

Definition db_roundtrip : M unit :=
  fun w =>
    let w' := MkWorld (committed w) (session w) (gen_calls w) (clock_reads w)
                      (S (db_ops w)) (http_calls w) (trace w) in
    match db_fault (db_ops w) with
    | Some msg => (Raise (error msg), w')
    | None => (Ok tt, w')
    end.

(** [Model.query.filter_by(...).first()]: the session's rows are read, as a
    query flushes pending changes first. *)
Definition query_first (t : table) (p : obj -> bool) : M (option obj) :=
  db_roundtrip ;;; fun w => (Ok (List.find p (rows t (session w))), w).

(** [Model.query.filter_by(...).all()] *)
Definition query_all (t : table) (p : obj -> bool) : M (list obj) :=
  db_roundtrip ;;; fun w => (Ok (List.filter p (rows t (session w))), w).

(** [db.session.add(o)] for a transient instance: the row is pending in the
    session under the key and the column defaults it gets at the flush; the
    instance the caller holds is that row. *)
Definition session_add (t : table) (dflts : list (string * pyval)) (o : obj) : M obj :=
  fun w =>
    let l := rows t (session w) in
    let o' := Obj (Some (fresh_id l)) (apply_defaults dflts (obj_attrs o)) in
    (Ok o', set_session (set_rows t (l ++ [o']) (session w)) w).

(** [o.attr = v] already applied to the local copy [o]. *)
Definition store_obj (t : table) (o : obj) : M unit :=
  fun w => (Ok tt, set_session (set_rows t (replace_row o (rows t (session w))) (session w)) w).

(** [db.session.commit()] *)
Definition commit : M unit :=
  db_roundtrip ;;;
  fun w => (Ok tt, MkWorld (session w) (session w) (gen_calls w) (clock_reads w)
                           (db_ops w) (http_calls w) (trace w)).

(** [datetime.utcnow()] *)
Definition now : M pyval :=
  fun w => (Ok (VDateTime (utcnow (clock_reads w))),
            MkWorld (committed w) (session w) (gen_calls w) (S (clock_reads w))
                    (db_ops w) (http_calls w) (trace w)).

End Ops.
End Db.
Export Db.

(** ** Models *)

Module Product.

(** [Product.to_dict] *)
Definition to_dict `{Env} (self : obj) : pyval :=
  let iso k := match getattr self k with
               | VDateTime t => VStr (isoformat t)
               | _ => VNone
               end in
  VDict (dict_of [
    ("id", id_of self);
    ("store_id", getattr self "store_id");
    ("shopify_product_id", getattr self "shopify_product_id");
    ("title", getattr self "title");
    ("description", getattr self "description");
    ("optimized_description", getattr self "optimized_description");
    ("handle", getattr self "handle");
    ("vendor", getattr self "vendor");
    ("product_type", getattr self "product_type");
    ("tags", getattr self "tags");
    ("variants", getattr self "variants");
    ("images", getattr self "images");
    ("status", getattr self "status");
    ("last_synced", iso "last_synced");
    ("created_at", iso "created_at");
    ("updated_at", iso "updated_at")]).

End Product.

Module Prompt.

Definition default_brand_voice : pyval :=
  VDict (dict_of [("personality", VStr "professional"); ("emotion", VStr "neutral");
                  ("formality", VStr "formal")]).

Definition default_industry_specific : pyval :=
  VDict (dict_of [("industry", VNone); ("specializations", VList []);
                  ("technical_level", VStr "moderate")]).

(** Modelled from the spec: the [is_active] column of [Prompt].
    [models/prompt.py] declares no such column although the services filter
    on it; section 4.2 says that the template created on demand is marked
    active, so a row inserted without the attribute gets [True]. *)
Definition is_active_default : pyval := VBool true.

(** The literal column defaults of [models/prompt.py], and [is_active].
    ([created_at] and [updated_at], which the database layer fills from the
    clock at a flush, are not modelled: no property below reads them.) *)
Definition column_defaults : list (string * pyval) :=
  [ ("status", VStr "pending");
    ("tone", VStr "professional");
    ("target_audience", VStr "general");
    ("writing_style", VStr "descriptive");
    ("seo_keywords_focus", VStr "balanced");
    ("description_length", VStr "medium");
    ("key_features", VList []);
    ("brand_voice", default_brand_voice);
    ("industry_specific", default_industry_specific);
    ("avoid_words", VList []);
    ("must_include_elements", VList []);
    ("template_sections",
       VList [VStr "introduction"; VStr "key_features"; VStr "benefits";
              VStr "specifications"; VStr "call_to_action"]);
    ("is_active", is_active_default) ].

(** The body of the built-in template, as [create_default_prompt] spells
    it. *)
Definition DEFAULT_TEMPLATE_BODY : string := "
            As an expert e-commerce copywriter and SEO specialist, optimize the following product description 
            to be more engaging, SEO-friendly, and conversion-focused. Maintain the key product features 
            while improving readability and search engine optimization.

            Product Title: {{product_title}}
            Original Description: {{original_description}}

            Guidelines:
            - Maintain a {{tone}} tone
            - Target {{target_audience}} audience
            - Use {{writing_style}} writing style
            - Focus on {{seo_keywords_focus}} SEO optimization
            - Aim for {{description_length}} length
            {% if key_features %}
            - Highlight these key features: {{key_features|join(', ')}}
            {% endif %}
            {% if brand_voice %}
            - Brand Voice:
              * Personality: {{brand_voice.personality}}
              * Emotion: {{brand_voice.emotion}}
              * Formality: {{brand_voice.formality}}
            {% endif %}
            {% if industry_specific %}
            - Industry Specifics:
              * Industry: {{industry_specific.industry}}
              * Technical Level: {{industry_specific.technical_level}}
            {% endif %}
            {% if custom_instructions %}
            - Custom Instructions: {{custom_instructions}}
            {% endif %}
            {% if avoid_words %}
            - Avoid these words: {{avoid_words|join(', ')}}
            {% endif %}
            {% if must_include_elements %}
            - Must include: {{must_include_elements|join(', ')}}
            {% endif %}
            ".

Definition variable_spec (ty : string) (required : bool) : pyval :=
  VDict (dict_of [("type", VStr ty); ("required", VBool required)]).

(** [Prompt.create_default_prompt(store_id)]: a transient instance.  The
    body is passed as [response]; no [template] and no [is_active] is given.
    ([response_time] is the float 0.0.) *)
Definition create_default_prompt (store_id : Z) : obj :=
  Obj None (dict_of [
    ("store_id", VInt store_id);
    ("template_name", VStr "Default SEO Optimization");
    ("content", VStr "Default template for SEO-optimized product descriptions");
    ("response", VStr DEFAULT_TEMPLATE_BODY);
    ("status", VStr "success");
    ("response_time", VInt 0);
    ("metadata", VDict (dict_of [
       ("product_title", variable_spec "string" true);
       ("original_description", variable_spec "string" true);
       ("tone", variable_spec "string" true);
       ("target_audience", variable_spec "string" true);
       ("writing_style", variable_spec "string" true);
       ("seo_keywords_focus", variable_spec "string" true);
       ("description_length", variable_spec "string" true);
       ("key_features", variable_spec "array" false);
       ("brand_voice", variable_spec "object" false);
       ("industry_specific", variable_spec "object" false);
       ("custom_instructions", variable_spec "string" false);
       ("avoid_words", variable_spec "array" false);
       ("must_include_elements", variable_spec "array" false)]))]).

(** [Prompt.to_dict] *)
Definition to_dict `{Env} (self : obj) : pyval :=
  let iso k := match getattr self k with
               | VDateTime t => VStr (isoformat t)
               | _ => VNone
               end in
  VDict (dict_of [
    ("id", id_of self);
    ("store_id", getattr self "store_id");
    ("template_name", getattr self "template_name");
    ("content", getattr self "content");
    ("response", getattr self "response");
    ("status", getattr self "status");
    ("response_time", getattr self "response_time");
    ("error_message", getattr self "error_message");
    ("metadata", getattr self "metadata");
    ("created_at", iso "created_at");
    ("updated_at", iso "updated_at")]).

(** The usage counter of a template, zero when it was never set. *)
Definition usage_count (self : obj) : Z :=
  match getattr self "usage_count" with VInt n => n | _ => 0 end.

(** Modelled from the spec: [Prompt.increment_usage], which
    [seo_service.py] calls and [models/prompt.py] does not define.  Section
    4.5 step 6: increment the template's usage counter. *)
Definition increment_usage (self : obj) : obj :=
  setattr self "usage_count" (VInt (usage_count self + 1)).

End Prompt.

(** ** Service responses *)

(** A service returns [(response_dict, status_code)]. *)
Definition Response : Type := (pyval * Z)%type.

Definition error_response (msg : string) (code : Z) : Response :=
  (VDict (dict_of [("error", VStr msg)]), code).

(** The body of a service method inside its outermost [try]: an early
    [return] and the fall-through both give [Ok]; [handler] is the
    [except Exception as e] clause. *)
Definition catching (body : M Response) (handler : exn -> World -> Response * World)
  : World -> Response * World :=
  fun w => match body w with
           | (Ok r, w') => (r, w')
           | (Raise e, w') => handler e w'
           end.

(** [except Exception as e: db.session.rollback(); return {'error': str(e)}, 500]:
    the rollback drops what is pending, the session shows the committed rows
    again. *)
Definition rollback_500 (e : exn) (w : World) : Response * World :=
  (error_response (exn_str e) 500, set_session (committed w) w).

(** [Store.query.filter_by(id=store_id, user_id=user_id).first()] *)
Definition find_store `{Env} (store_id user_id : Z) : M (option obj) :=
  query_first Stores (fun o => has_id store_id o && attr_is_int o "user_id" user_id).

(** [o.attr = v] on an instance of table [t]: the caller's copy and the
    session's row change together. *)
Definition assign (t : table) (o : obj) (k : string) (v : pyval) : M obj :=
  store_obj t (setattr o k v) ;;; ret (setattr o k v).

(** ** services/prompt_service.py *)

Module PromptService.
Section PromptService.
Context `{Env}.

Definition required_fields : list string := ["tone"; "target_audience"; "writing_style"].

Definition valid_fields : list string :=
  ["tone"; "target_audience"; "writing_style"; "seo_keywords_focus";
   "description_length"; "key_features"; "brand_voice"; "industry_specific";
   "custom_instructions"; "example_description"; "avoid_words";
   "must_include_elements"; "template_sections"].

(** The first field of [fields] that the payload does not carry: the loop
    that validates required fields returns at it. *)
Fixpoint first_missing (fields : list string) (payload : gmap string pyval) : option string :=
  match fields with
  | [] => None
  | f :: rest => match payload !! f with
                 | None => Some f
                 | Some _ => first_missing rest payload
                 end
  end.

Definition is_nested_field (f : string) : bool :=
  String.eqb f "brand_voice" || String.eqb f "industry_specific".

(** One turn of the merge loop of [update_prompt_preferences].  The nested
    dict that [update] changes in place is shared with the stored value
    ([copy] is shallow); the stored value is replaced by the result when the
    loop ends and restored by the rollback when it raises, so the loop is
    given on values. *)
Definition merge_field (preferences : gmap string pyval) (field : string)
    (updated_preferences : gmap string pyval) : result (gmap string pyval) :=
  match preferences !! field with
  | None => Ok updated_preferences
  | Some (VDict new) =>
      if is_nested_field field then
        match default (VDict ∅) (updated_preferences !! field) with
        | VDict old => Ok (<[field := VDict (new ∪ old)]> updated_preferences)
        | _ => Raise (error "object has no attribute 'update'")
        end
      else Ok (<[field := VDict new]> updated_preferences)
  | Some v => Ok (<[field := v]> updated_preferences)
  end.

Fixpoint merge_fields (preferences : gmap string pyval) (fields : list string)
    (updated_preferences : gmap string pyval) : result (gmap string pyval) :=
  match fields with
  | [] => Ok updated_preferences
  | f :: rest =>
      match merge_field preferences f updated_preferences with
      | Ok u => merge_fields preferences rest u
      | Raise e => Raise e
      end
  end.

(** [store.prompt_preferences.copy() if store.prompt_preferences else {}] *)
Definition copy_preferences (stored : pyval) : result (gmap string pyval) :=
  match stored with
  | VDict d => Ok d
  | VList (_ :: _) => Raise (error "list indices must be integers or slices, not str")
  | v => if truthy v then Raise (error "object has no attribute 'copy'") else Ok ∅
  end.

(** The [try] block of [PromptService.update_prompt_preferences] *)
Definition update_prompt_preferences_try (store_id user_id : Z) (preferences : gmap string pyval)
  : M Response :=
  store <- find_store store_id user_id ;;
  match store with
  | None => ret (error_response "Store not found" 404)
  | Some store =>
      match first_missing required_fields preferences with
      | Some field => ret (error_response ("Missing required field: " +:+ field) 400)
      | None =>
          updated_preferences <- lift (copy_preferences (getattr store "prompt_preferences")) ;;
          updated_preferences <- lift (merge_fields preferences valid_fields updated_preferences) ;;
          store <- assign Stores store "prompt_preferences" (VDict updated_preferences) ;;
          t <- now ;;
          store <- assign Stores store "updated_at" t ;;
          commit ;;;
          ret (VDict (dict_of [
                 ("message", VStr "Prompt preferences updated successfully");
                 ("prompt_preferences", getattr store "prompt_preferences")]), 200)
      end
  end.

(** [update_prompt_preferences], the block above under its [except] clauses. *)
Definition update_prompt_preferences (store_id user_id : Z) (preferences : gmap string pyval)
  : World -> Response * World :=
  catching (update_prompt_preferences_try store_id user_id preferences) rollback_500.









(** [PromptService.render_prompt]: the template is read from
    [prompt.template].  [models/prompt.py] declares no such column, so an
    instance on which no template was set has no such attribute: the read
    raises inside the [try], and leaves as any other failure does. *)
Definition render_prompt (prompt : obj) (context : gmap string pyval) : result string :=
  let failed msg := Raise (error ("Failed to render prompt template: " +:+ msg)) in
  match obj_attrs prompt !! "template" with
  | None => failed "'Prompt' object has no attribute 'template'"
  | Some source =>
      match jinja2_Template source with
      | Some msg => failed msg
      | None =>
          match template_render source context with
          | Ok text => Ok text
          | Raise e => failed (exn_str e)
          end
      end
  end.

End PromptService.
End PromptService.

(** ** The generation step shared by both optimizers *)

(** [if not text.strip().startswith('<'): text = f"<p>{text}</p>"] *)
Definition ensure_html (text : string) : string :=
  if startswith "<" (strip text) then text else "<p>" +:+ text +:+ "</p>".

(** [model.generate_content(prompt).text] *)
Definition call_generate `{Env} (prompt_text : string) : M string :=
  fun w => (generate_content (gen_calls w) prompt_text,
            MkWorld (committed w) (session w) (S (gen_calls w)) (clock_reads w)
                    (db_ops w) (http_calls w) (trace w ++ [EvGenerate prompt_text])).

(** [except Exception as e: raise Exception(f"Failed to generate optimized
    description: {str(e)}")] *)
Definition generation_failed {A} (e : exn) : M A :=
  raise (error ("Failed to generate optimized description: " +:+ exn_str e)).

(** ** services/seo_service.py *)

Module SEOService.
Section SEOService.
Context `{Env}.

(** [filter_by(store_id=store_id, is_active=True)] *)
Definition active_for (store_id : Z) (o : obj) : bool :=
  attr_is_int o "store_id" store_id && attr_is_true o "is_active".

(** Lines 35-41 of [_get_optimized_description]: the active template of the
    store, created from the built-in one and committed when there is
    none. *)
Definition get_active_prompt (store_id : Z) : M obj :=
  prompt <- query_first Prompts (active_for store_id) ;;
  match prompt with
  | Some prompt => ret prompt
  | None =>
      prompt <- session_add Prompts Prompt.column_defaults
                            (Prompt.create_default_prompt store_id) ;;
      commit ;;;
      ret prompt
  end.

(** The rendering context; [store_preferences.get] needs a dict. *)
Definition build_context (original_description product_title store_preferences : pyval)
  : result (gmap string pyval) :=
  match store_preferences with
  | VDict prefs =>
      let get k dflt := dict_get prefs k dflt in
      Ok (dict_of [
        ("product_title", product_title);
        ("original_description", original_description);
        ("tone", get "tone" (VStr "professional"));
        ("target_audience", get "target_audience" (VStr "general"));
        ("writing_style", get "writing_style" (VStr "descriptive"));
        ("seo_keywords_focus", get "seo_keywords_focus" (VStr "balanced"));
        ("description_length", get "description_length" (VStr "medium"));
        ("key_features", get "key_features" (VList []));
        ("brand_voice", get "brand_voice" Prompt.default_brand_voice);
        ("industry_specific", get "industry_specific" Prompt.default_industry_specific);
        ("custom_instructions", get "custom_instructions" VNone);
        ("avoid_words", get "avoid_words" (VList []));
        ("must_include_elements", get "must_include_elements" (VList []))])
  | _ => Raise (error "object has no attribute 'get'")
  end.

(** [PromptService.render_prompt(prompt, context)], recorded in the trace. *)
Definition render (prompt : obj) (context : gmap string pyval) : M string :=
  emit (EvRender prompt context) ;;; lift (PromptService.render_prompt prompt context).

(** Lines 68-75: render, and on any exception render the built-in template
    instead.  The template in use comes back with the text. *)
Definition render_with_fallback (store_id : Z) (prompt : obj) (context : gmap string pyval)
  : M (obj * string) :=
  try_except
    (prompt_text <- render prompt context ;; ret (prompt, prompt_text))
    (fun _ =>
       let prompt := Prompt.create_default_prompt store_id in
       prompt_text <- render prompt context ;;
       ret (prompt, prompt_text)).

(** [SEOService._get_optimized_description] *)
Definition _get_optimized_description (original_description product_title
    store_preferences : pyval) (store_id : Z) : M string :=
  try_except
    (prompt <- get_active_prompt store_id ;;
     context <- lift (build_context original_description product_title store_preferences) ;;
     rendered <- render_with_fallback store_id prompt context ;;
     optimized_description <- call_generate rendered.2 ;;
     store_obj Prompts (Prompt.increment_usage rendered.1) ;;;
     ret (ensure_html optimized_description))
    generation_failed.

(** The statements that update the product once the description is there
    (lines 131-133 and 184-186). *)
Definition mark_optimized (product : obj) (optimized_description : string) : M obj :=
  product <- assign Products product "optimized_description" (VStr optimized_description) ;;
  product <- assign Products product "is_optimized" (VBool true) ;;
  t <- now ;;
  assign Products product "last_optimized" t.

(** [Product.query.filter_by(id=product_id, store_id=store_id).first()] *)
Definition find_product (product_id store_id : Z) : M (option obj) :=
  query_first Products (fun o => has_id product_id o && attr_is_int o "store_id" store_id).

(** The [try] block of [SEOService.optimize_product_description];
    [custom_prompt] is not used. *)
Definition optimize_product_description_try (user_id store_id product_id : Z)
  : M Response :=
  store <- find_store store_id user_id ;;
  match store with
  | None => ret (error_response "Store not found" 404)
  | Some store =>
      product <- find_product product_id store_id ;;
      match product with
      | None => ret (error_response "Product not found" 404)
      | Some product =>
          optimized_description <-
            _get_optimized_description (getattr product "original_description")
              (getattr product "title") (getattr store "prompt_preferences") store_id ;;
          product <- mark_optimized product optimized_description ;;
          commit ;;;
          ret (VDict (dict_of [
                 ("message", VStr "Product description optimized successfully");
                 ("product", Product.to_dict product)]), 200)
      end
  end.

(** [optimize_product_description], the block above under its [except] clauses. *)
Definition optimize_product_description (user_id store_id product_id : Z)
  : World -> Response * World :=
  catching (optimize_product_description_try user_id store_id product_id) rollback_500.

(** The body of the per-product [try] of [optimize_all_products]: what is
    appended to [optimized_products]. *)
Definition optimize_one (store : obj) (store_id : Z) (product : obj) : M pyval :=
  optimized_description <-
    _get_optimized_description (getattr product "original_description")
      (getattr product "title") (getattr store "prompt_preferences") store_id ;;
  product <- mark_optimized product optimized_description ;;
  ret (Product.to_dict product).

(** The entry appended to [errors]. *)
Definition error_entry (product : obj) (e : exn) : pyval :=
  VDict (dict_of [("product_id", id_of product); ("error", VStr (exn_str e))]).

(** The [for product in products] loop, with its two accumulators. *)
Fixpoint optimize_loop (store : obj) (store_id : Z) (products : list obj)
    (acc : list pyval * list pyval) : M (list pyval * list pyval) :=
  match products with
  | [] => ret acc
  | product :: rest =>
      acc <- try_except
               (entry <- optimize_one store store_id product ;;
                ret (acc.1 ++ [entry], acc.2))
               (fun e => ret (acc.1, acc.2 ++ [error_entry product e])) ;;
      optimize_loop store store_id rest acc
  end.

(** [len(optimized_products)] inside the message. *)
Definition optimized_message (n : nat) : string :=
  "Successfully optimized " +:+ py_str (VInt (Z.of_nat n)) +:+ " products".

(** Lines 199-207: the response of the batch. *)
Definition batch_response (optimized_products errors : list pyval) : Response :=
  let response := dict_of [("message", VStr (optimized_message (length optimized_products)));
                           ("products", VList optimized_products)] in
  match errors with
  | [] => (VDict response, 200)
  | _ => (VDict (<["errors" := VList errors]> response), 207)
  end.

(** The [try] block of [SEOService.optimize_all_products] *)
Definition optimize_all_products_try (user_id store_id : Z)
  : M Response :=
  store <- find_store store_id user_id ;;
  match store with
  | None => ret (error_response "Store not found" 404)
  | Some store =>
      products <- query_all Products (fun o => attr_is_int o "store_id" store_id) ;;
      acc <- optimize_loop store store_id products ([], []) ;;
      commit ;;;
      ret (batch_response acc.1 acc.2)
  end.

(** [optimize_all_products], the block above under its [except] clauses. *)
Definition optimize_all_products (user_id store_id : Z)
  : World -> Response * World :=
  catching (optimize_all_products_try user_id store_id) rollback_500.

End SEOService.
End SEOService.

(** ** services/product_service.py *)

Module ProductService.
Section ProductService.
Context `{Env}.

Definition base_prompt : string := "
            As an expert e-commerce copywriter and SEO specialist, optimize the following product description 
            to be more engaging, SEO-friendly, and conversion-focused. Maintain the key product features 
            while improving readability and search engine optimization.

            Product Title: {title}
            Original Description: {description}

            Guidelines:
            - Maintain a professional yet engaging tone
            - Include relevant keywords naturally
            - Structure content with clear sections
            - Focus on benefits and value propositions
            - Ensure mobile-friendly formatting
            - Keep HTML formatting for Shopify
            ".

(** [if store_preferences and store_preferences.get(key): base_prompt += line] *)
Definition add_guideline (store_preferences : pyval) (key : string)
    (line : pyval -> string) (prompt : string) : result string :=
  if truthy store_preferences then
    match store_preferences with
    | VDict prefs =>
        let v := dict_get prefs key VNone in
        Ok (if truthy v then prompt +:+ line v else prompt)
    | _ => Raise (error "object has no attribute 'get'")
    end
  else Ok prompt.

(** [ProductService._get_optimized_description] *)
Definition _get_optimized_description (original_description product_title
    store_preferences : pyval) : M string :=
  try_except
    (prompt <- lift (add_guideline store_preferences "tone"
                       (fun v => "
- Use a " +:+ py_str v +:+ " tone") base_prompt) ;;
     prompt <- lift (add_guideline store_preferences "length"
                       (fun v => "
- Aim for approximately " +:+ py_str v +:+ " words") prompt) ;;
     prompt <- lift (str_format prompt product_title original_description) ;;
     optimized_description <- call_generate prompt ;;
     ret (ensure_html optimized_description))
    generation_failed.

(** The [try] block of [ProductService.optimize_product_description];
    [custom_prompt] is not used. *)
Definition optimize_product_description_try (user_id store_id product_id : Z)
  : M Response :=
  store <- find_store store_id user_id ;;
  match store with
  | None => ret (error_response "Store not found" 404)
  | Some store =>
      product <- SEOService.find_product product_id store_id ;;
      match product with
      | None => ret (error_response "Product not found" 404)
      | Some product =>
          optimized_description <-
            _get_optimized_description
              (py_or (getattr product "original_description") (getattr product "description"))
              (getattr product "title") (getattr store "prompt_preferences") ;;
          product <- assign Products product "optimized_description"
                            (VStr optimized_description) ;;
          product <- assign Products product "original_description"
                            (py_or (getattr product "original_description")
                                   (getattr product "description")) ;;
          product <- assign Products product "is_optimized" (VBool true) ;;
          t <- now ;;
          product <- assign Products product "last_optimized" t ;;
          product <- assign Products product "optimization_service" (VStr "gemini") ;;
          commit ;;;
          ret (VDict (dict_of [
                 ("message", VStr "Product description optimized successfully");
                 ("product", Product.to_dict product)]), 200)
      end
  end.

(** [optimize_product_description], the block above under its [except] clauses. *)
Definition optimize_product_description (user_id store_id product_id : Z)
  : World -> Response * World :=
  catching (optimize_product_description_try user_id store_id product_id) rollback_500.

(** The body of the per-product [try] of [optimize_all_products]. *)
Definition optimize_one (store product : obj) : M pyval :=
  optimized_description <-
    _get_optimized_description (getattr product "original_description")
      (getattr product "title") (getattr store "prompt_preferences") ;;
  product <- SEOService.mark_optimized product optimized_description ;;
  ret (Product.to_dict product).

(** The loop of [optimize_all_products]: the handler prints the error and
    continues. *)
Fixpoint optimize_loop (store : obj) (products : list obj) (optimized_products : list pyval)
  : M (list pyval) :=
  match products with
  | [] => ret optimized_products
  | product :: rest =>
      optimized_products <-
        try_except
          (entry <- optimize_one store product ;; ret (optimized_products ++ [entry]))
          (fun _ => ret optimized_products) ;;
      optimize_loop store rest optimized_products
  end.

(** The [try] block of [ProductService.optimize_all_products] *)
Definition optimize_all_products_try (user_id store_id : Z)
  : M Response :=
  store <- find_store store_id user_id ;;
  match store with
  | None => ret (error_response "Store not found" 404)
  | Some store =>
      products <- query_all Products (fun o => attr_is_int o "store_id" store_id) ;;
      optimized_products <- optimize_loop store products [] ;;
      commit ;;;
      ret (VDict (dict_of [
             ("message", VStr (SEOService.optimized_message (length optimized_products)));
             ("products", VList optimized_products)]), 200)
  end.

(** [optimize_all_products], the block above under its [except] clauses. *)
Definition optimize_all_products (user_id store_id : Z)
  : World -> Response * World :=
  catching (optimize_all_products_try user_id store_id) rollback_500.

(** [requests.put(url, json=product_data, headers=headers)] *)
Definition call_put (url : string) (json headers : pyval) : M (Z * string) :=
  fun w => (requests_put (http_calls w) url json headers,
            MkWorld (committed w) (session w) (gen_calls w) (clock_reads w)
                    (db_ops w) (S (http_calls w)) (trace w)).












End ProductService.
End ProductService.

(** ** A concrete environment *)

Module Demo.

(** A small deterministic environment for the examples: a template is a
    string, one that starts with an opening block tag does not compile,
    rendering appends the product title, the provider fails at the calls
    singled out by [fails] and answers [reply] otherwise, and the database
    never fails. *)
Definition demo_env (fails : nat -> bool) (reply : string) : Env := {|
  jinja2_Template source :=
    match source with
    | VStr s => if startswith "{%" s then Some "unexpected end of template" else None
    | _ => Some "Can't compile non template nodes"
    end;
  template_render source context :=
    match source with
    | VStr s =>
        Ok (s +:+ match dict_get context "product_title" VNone with
                  | VStr t => t
                  | _ => ""
                  end)
    | _ => Raise (error "not a template")
    end;
  generate_content n text := if fails n then Raise (error "ProviderError") else Ok reply;
  utcnow n := 1000 + Z.of_nat n;
  isoformat t := pretty t;
  py_repr v := match v with VInt z => pretty z | _ => "" end;
  str_format base title description := Ok base;
  requests_put n url json headers := Ok (200, "");
  db_fault n := None
|}.

(** The provider always answers. *)
Definition working : Env := demo_env (fun _ => false) "Hello world".

(** The provider never answers. *)
Definition failing : Env := demo_env (fun _ => true) "".

(** The provider fails at its second call. *)
Definition second_fails : Env := demo_env (Nat.eqb 1) "Hello world".

Definition demo_store (prefs : pyval) : obj :=
  Obj (Some 1) (dict_of [("user_id", VInt 1); ("prompt_preferences", prefs);
                         ("access_token", VStr "token")]).

Definition demo_product (i : Z) (title : string) : obj :=
  Obj (Some i) (dict_of [("store_id", VInt 1); ("title", VStr title);
                         ("original_description", VStr "plain")]).

Definition demo_prompt (template : string) : obj :=
  Obj (Some 1) (dict_of [("store_id", VInt 1); ("is_active", VBool true);
                         ("template", VStr template)]).

(** A world with nothing pending and no call made yet. *)
Definition world_of (d : DB) : World := MkWorld d d 0 0 0 0 [].

Definition three_products : list obj :=
  [demo_product 1 "A"; demo_product 2 "B"; demo_product 3 "C"].

(** One store, three products, an active template that renders. *)
Definition w_ready : World :=
  world_of (MkDB [demo_store (VDict ∅)] three_products [demo_prompt "Rewrite: "]).

(** The same with an active template that does not compile. *)
Definition w_broken : World :=
  world_of (MkDB [demo_store (VDict ∅)] three_products [demo_prompt "{% if"]).



Definition professional_voice : pyval :=
  VDict (dict_of [("personality", VStr "professional")]).

(** A store whose stored preferences hold a brand voice. *)
Definition w_voice : World :=
  world_of (MkDB [demo_store (VDict (dict_of [("brand_voice", professional_voice)]))] [] []).

Definition emotion_only : gmap string pyval :=
  dict_of [("brand_voice", VDict (dict_of [("emotion", VStr "x")]))].


(** The rendering context of product 1 under empty preferences. *)
Definition demo_context : gmap string pyval :=
  match SEOService.build_context (VStr "plain") (VStr "A") (VDict ∅) with
  | Ok context => context
  | Raise _ => ∅
  end.

(** [v[k]] for reading a reply, [None] when the key is missing. *)
Definition item (v : pyval) (k : string) : pyval :=
  match v with
  | VDict d => dict_get d k VNone
  | _ => VNone
  end.

(** The elements of a list value. *)
Definition elements_of (v : pyval) : list pyval :=
  match v with
  | VList l => l
  | _ => []
  end.


(** An instance as its key and the list of its attributes. *)
Definition row_of (o : obj) : option Z * list (string * pyval) :=
  (obj_id o, map_to_list (obj_attrs o)).

End Demo.
Import Demo.

(** ** The vocabulary of the properties *)

Section Vocabulary.
Context `{Env}.

(** From a world where [P] holds, [m] ends with a value and a world that
    satisfy [Q], or with an exception and a world that satisfy [E]. *)
Definition triple {A} (P : World -> Prop) (m : M A)
    (Q : A -> World -> Prop) (E : exn -> World -> Prop) : Prop :=
  forall w, P w ->
    match m w with
    | (Ok a, w') => Q a w'
    | (Raise e, w') => E e w'
    end.

(** [m] maintains [I] however it ends. *)
Definition keeps {A} (I : World -> Prop) (m : M A) : Prop :=
  triple I m (fun _ => I) (fun _ => I).

(** A property of the rows only: the counters and the trace do not
    matter. *)
Definition on_rows (I : World -> Prop) : Prop :=
  forall w w', committed w' = committed w -> session w' = session w -> I w -> I w'.

(** [f] is the first of [fields] that [payload] does not carry. *)
Definition first_missing_is (fields : list string) (payload : gmap string pyval)
    (f : string) : Prop :=
  exists before after,
    fields = before ++ f :: after
    /\ Forall (fun g => is_Some (payload !! g)) before
    /\ payload !! f = None.

(** The world after one round trip to the database that did not fail. *)
Definition after_roundtrip (w : World) : World :=
  MkWorld (committed w) (session w) (gen_calls w) (clock_reads w)
          (S (db_ops w)) (http_calls w) (trace w).

(** The product rows are [L] in the session and in the committed state. *)
Definition products_are (L : list obj) (w : World) : Prop :=
  products (session w) = L /\ products (committed w) = L.

(** The committed product rows are [L]. *)
Definition committed_products_are (L : list obj) (w : World) : Prop :=
  products (committed w) = L.

(** A response that reports an error. *)
Definition is_error (r : Response) : Prop :=
  exists msg code, r = error_response msg code /\ (code = 404 \/ code = 500).

(** Neither view of the product rows changed. *)
Definition products_untouched (w w' : World) : Prop :=
  products (session w') = products (session w)
  /\ products (committed w') = products (committed w).

(** The outcome of a single-item body: status 200, or an error reply with
    the product rows as they were; an exception leaves the committed rows as
    they were. *)
Definition item_post (L : list obj) (r : Response) (w : World) : Prop :=
  r.2 = 200 \/ (is_error r /\ products_are L w).

(** The row that the lazy creation inserts when the prompt rows are [l]. *)
Definition lazy_default (store_id : Z) (l : list obj) : obj :=
  Obj (Some (fresh_id l))
      (apply_defaults Prompt.column_defaults
                      (obj_attrs (Prompt.create_default_prompt store_id))).

(** The world after [db.session.add] of a prompt row. *)
Definition with_prompt (p : obj) (w : World) : World :=
  set_session (set_rows Prompts (prompts (session w) ++ [p]) (session w)) w.

(** The world after a commit that did not fail. *)
Definition after_commit (w : World) : World :=
  MkWorld (session w) (session w) (gen_calls w) (clock_reads w)
          (S (db_ops w)) (http_calls w) (trace w).

(** The world after an event is recorded. *)
Definition logged (ev : event) (w : World) : World :=
  MkWorld (committed w) (session w) (gen_calls w) (clock_reads w)
          (db_ops w) (http_calls w) (trace w ++ [ev]).

(** The templates rendered along a trace, in order. *)
Definition renders (t : list event) : list (obj * gmap string pyval) :=
  flat_map (fun ev => match ev with
                      | EvRender p c => [(p, c)]
                      | EvGenerate _ => []
                      end) t.

(** The world after [_get_optimized_description] succeeded with the stored
    template [tpl]. *)
Definition after_description (tpl : obj) (ctx : gmap string pyval) (prompt_text : string)
    (w : World) : World :=
  MkWorld (committed w)
          (set_rows Prompts (replace_row (Prompt.increment_usage tpl) (prompts (session w)))
                    (session w))
          (S (gen_calls w)) (clock_reads w) (S (db_ops w)) (http_calls w)
          (trace w ++ [EvRender tpl ctx; EvGenerate prompt_text]).


(** The first character of [text] that is not white space. *)
Definition first_visible (text : string) : option ascii :=
  match lstrip text with
  | String c _ => Some c
  | EmptyString => None
  end.

(** The reading of the specification: a text begins with an open tag when
    it starts with the opening angle bracket followed by a letter, the
    first of the tag's name. *)
Definition spec_begins_with_tag (text : string) : bool :=
  match text with
  | String "<" (String c _) =>
      let n := nat_of_ascii c in
      (Nat.leb 65 n && Nat.leb n 90) || (Nat.leb 97 n && Nat.leb n 122)
  | _ => false
  end.

(** The stored text as the specification words it. *)
Definition spec_normalized (text : string) : string :=
  if spec_begins_with_tag text then text else "<p>" +:+ text +:+ "</p>".






(** *** The batch runner of the specification *)
















End Vocabulary.

(** ** Reasoning about computations *)

Section Logic.
Context `{Env}.

Lemma triple_ret {A} (P : World -> Prop) (a : A) Q E :
  (forall w, P w -> Q a w) -> triple P (ret a) Q E.
Proof. intros HQ w Hw. simpl. auto. Qed.

Lemma triple_raise {A} (P : World -> Prop) e (Q : A -> World -> Prop) E :
  (forall w, P w -> E e w) -> triple P (raise e) Q E.
Proof. intros HE w Hw. simpl. auto. Qed.

Lemma triple_lift {A} (P : World -> Prop) (r : result A) Q E :
  (forall w, P w -> match r with Ok a => Q a w | Raise e => E e w end) ->
  triple P (lift r) Q E.
Proof. intros Hr w Hw. unfold lift. specialize (Hr w Hw). destruct r; auto. Qed.

Lemma triple_bind {A B} (P : World -> Prop) (m : M A) (k : A -> M B) R Q E :
  triple P m R E -> (forall a, triple (R a) (k a) Q E) -> triple P (bind m k) Q E.
Proof.
  intros Hm Hk w Hw. unfold bind. specialize (Hm w Hw).
  destruct (m w) as [[a|e] w1]; auto. apply Hk; auto.
Qed.

Lemma triple_try {A} (P : World -> Prop) (m : M A) (h : exn -> M A) Q E1 E :
  triple P m Q E1 -> (forall e, triple (E1 e) (h e) Q E) -> triple P (try_except m h) Q E.
Proof.
  intros Hm Hh w Hw. unfold try_except. specialize (Hm w Hw).
  destruct (m w) as [[a|e] w1]; auto. apply Hh; auto.
Qed.

Lemma triple_weaken {A} (P P' : World -> Prop) (m : M A) (Q Q' : A -> World -> Prop)
    (E E' : exn -> World -> Prop) :
  triple P' m Q' E' ->
  (forall w, P w -> P' w) -> (forall a w, Q' a w -> Q a w) -> (forall e w, E' e w -> E e w) ->
  triple P m Q E.
Proof.
  intros Hm HP HQ HE w Hw. specialize (Hm w (HP w Hw)).
  destruct (m w) as [[a|e] w1]; auto.
Qed.

Lemma keeps_ret {A} I (a : A) : keeps I (ret a).
Proof. apply triple_ret; auto. Qed.

Lemma keeps_raise {A} I e : keeps I (@raise A e).
Proof. apply triple_raise; auto. Qed.

Lemma keeps_lift {A} I (r : result A) : keeps I (lift r).
Proof. apply triple_lift. intros; destruct r; auto. Qed.

Lemma keeps_bind {A B} I (m : M A) (k : A -> M B) :
  keeps I m -> (forall a, keeps I (k a)) -> keeps I (bind m k).
Proof. intros Hm Hk. eapply triple_bind; [exact Hm | exact Hk]. Qed.

Lemma keeps_try {A} I (m : M A) (h : exn -> M A) :
  keeps I m -> (forall e, keeps I (h e)) -> keeps I (try_except m h).
Proof. intros Hm Hh. eapply triple_try; [exact Hm | exact Hh]. Qed.

Lemma keeps_roundtrip I : on_rows I -> keeps I db_roundtrip.
Proof.
  intros HI w Hw. unfold db_roundtrip.
  destruct (db_fault (db_ops w)); apply (HI w); auto.
Qed.

Lemma keeps_query_first I t p : on_rows I -> keeps I (query_first t p).
Proof.
  intros HI. unfold query_first. apply keeps_bind; [apply keeps_roundtrip; auto|].
  intros _ w Hw. exact Hw.
Qed.

Lemma keeps_query_all I t p : on_rows I -> keeps I (query_all t p).
Proof.
  intros HI. unfold query_all. apply keeps_bind; [apply keeps_roundtrip; auto|].
  intros _ w Hw. exact Hw.
Qed.

Lemma keeps_now I : on_rows I -> keeps I now.
Proof. intros HI w Hw. simpl. apply (HI w); auto. Qed.

Lemma keeps_emit I ev : on_rows I -> keeps I (emit ev).
Proof. intros HI w Hw. simpl. apply (HI w); auto. Qed.

Lemma keeps_generate I text : on_rows I -> keeps I (call_generate text).
Proof.
  intros HI w Hw. unfold call_generate.
  destruct (generate_content (gen_calls w) text); apply (HI w); auto.
Qed.

Lemma keeps_put I url json headers :
  on_rows I -> keeps I (ProductService.call_put url json headers).
Proof.
  intros HI w Hw. unfold ProductService.call_put.
  destruct (requests_put (http_calls w) url json headers); apply (HI w); auto.
Qed.

(** A change of the session's rows. *)
Lemma keeps_session_add I t dflts o :
  (forall w l, I w -> I (set_session (set_rows t l (session w)) w)) ->
  keeps I (session_add t dflts o).
Proof. intros HI w Hw. unfold session_add. simpl. apply HI; auto. Qed.

Lemma keeps_store_obj I t o :
  (forall w l, I w -> I (set_session (set_rows t l (session w)) w)) ->
  keeps I (store_obj t o).
Proof. intros HI w Hw. unfold store_obj. simpl. apply HI; auto. Qed.

Lemma keeps_assign I t o k v :
  (forall w l, I w -> I (set_session (set_rows t l (session w)) w)) ->
  keeps I (assign t o k v).
Proof.
  intros HI. unfold assign. apply keeps_bind; [apply keeps_store_obj; auto|].
  intros _. apply keeps_ret.
Qed.

Lemma triple_commit (P : World -> Prop) (Q : World -> Prop) (E : World -> Prop) :
  (forall w w', P w -> committed w' = session w -> session w' = session w -> Q w') ->
  (forall w w', P w -> committed w' = committed w -> session w' = session w -> E w') ->
  triple P commit (fun _ => Q) (fun _ => E).
Proof.
  intros HQ HE w Hw. unfold commit, bind, db_roundtrip.
  destruct (db_fault (db_ops w)).
  - apply (HE w); auto.
  - apply (HQ w); auto.
Qed.

Lemma keeps_commit I :
  (forall w w', I w -> committed w' = session w -> session w' = session w -> I w') ->
  on_rows I -> keeps I commit.
Proof. intros HI Hrows. apply triple_commit; auto. intros w w' Hw Hc Hs. apply (Hrows w); auto. Qed.

End Logic.

Ltac keeps_step :=
  lazymatch goal with
  | |- keeps _ (bind _ _) => apply keeps_bind; [|intros ?]
  | |- keeps _ (try_except _ _) => apply keeps_try; [|intros ?]
  | |- keeps _ (ret _) => apply keeps_ret
  | |- keeps _ (raise _) => apply keeps_raise
  | |- keeps _ (generation_failed _) => apply keeps_raise
  | |- keeps _ (lift _) => apply keeps_lift
  | |- keeps _ (query_first _ _) => apply keeps_query_first
  | |- keeps _ (query_all _ _) => apply keeps_query_all
  | |- keeps _ (find_store _ _) => apply keeps_query_first
  | |- keeps _ (SEOService.find_product _ _) => apply keeps_query_first
  | |- keeps _ now => apply keeps_now
  | |- keeps _ (emit _) => apply keeps_emit
  | |- keeps _ (call_generate _) => apply keeps_generate
  | |- keeps _ (ProductService.call_put _ _ _) => apply keeps_put
  | |- keeps _ (assign _ _ _ _) => apply keeps_assign
  | |- keeps _ (store_obj _ _) => apply keeps_store_obj
  | |- keeps _ (session_add _ _ _) => apply keeps_session_add
  | |- keeps _ commit => apply keeps_commit
  | |- keeps _ (match ?x with _ => _ end) => destruct x
  | |- keeps _ (if ?x then _ else _) => destruct x
  end.

(** ** Properties *)

Section Properties.
Context `{Env}.

Lemma first_missing_spec fields payload :
  match PromptService.first_missing fields payload with
  | Some f => first_missing_is fields payload f
  | None => Forall (fun g => is_Some (payload !! g)) fields
  end.
Proof.
  induction fields as [|g rest IH]; simpl.
  - constructor.
  - destruct (payload !! g) eqn:Hg.
    + destruct (PromptService.first_missing rest payload) as [f|].
      * destruct IH as (before & after & -> & Hb & Hf).
        exists (g :: before), after. repeat split; auto.
      * constructor; eauto.
    + exists [], rest. repeat split; auto.
Qed.

Lemma first_missing_some fields payload :
  (exists f, f ∈ fields /\ payload !! f = None) ->
  exists f, PromptService.first_missing fields payload = Some f.
Proof.
  intros (f & Hin & Hf).
  pose proof (first_missing_spec fields payload) as Hs.
  destruct (PromptService.first_missing fields payload) as [g|]; eauto.
  rewrite Forall_forall in Hs. apply Hs in Hin. rewrite Hf in Hin.
  destruct Hin; discriminate.
Qed.



Lemma find_store_ok store_id user_id w :
  db_fault (db_ops w) = None ->
  find_store store_id user_id w =
  (Ok (List.find (fun o => has_id store_id o && attr_is_int o "user_id" user_id)
                 (stores (session w))), after_roundtrip w).
Proof.
  intros Hf. unfold find_store, query_first, bind, db_roundtrip. rewrite Hf. reflexivity.
Qed.

(** C9: a preference update that omits one of tone, target_audience and
    writing_style is answered with status 400 and the message naming the
    first omitted field, and neither the session nor the committed rows
    change. *)
Theorem update_preferences_requires_fields :
  forall store_id user_id payload w store,
    db_fault (db_ops w) = None ->
    List.find (fun o => has_id store_id o && attr_is_int o "user_id" user_id)
              (stores (session w)) = Some store ->
    (exists f, f ∈ PromptService.required_fields /\ payload !! f = None) ->
    exists f w',
      first_missing_is PromptService.required_fields payload f
      /\ PromptService.update_prompt_preferences store_id user_id payload w
         = (error_response ("Missing required field: " +:+ f) 400, w')
      /\ session w' = session w
      /\ committed w' = committed w.
Proof.
  intros store_id user_id payload w store Hfault Hstore Hmiss.
  destruct (first_missing_some _ _ Hmiss) as [f Hf].
  exists f, (after_roundtrip w).
  split.
  - pose proof (first_missing_spec PromptService.required_fields payload) as Hs.
    rewrite Hf in Hs. exact Hs.
  - split; [|split; reflexivity].
    unfold PromptService.update_prompt_preferences, catching,
      PromptService.update_prompt_preferences_try, bind.
    rewrite find_store_ok by assumption. rewrite Hstore, Hf. reflexivity.
Qed.

End Properties.

Section Isolation.
Context `{Env}.

Lemma products_are_on_rows L : on_rows (products_are L).
Proof. intros w w' Hc Hs [H1 H2]. unfold products_are. rewrite Hc, Hs. auto. Qed.

Lemma committed_products_on_rows L : on_rows (committed_products_are L).
Proof. intros w w' Hc Hs H1. unfold committed_products_are. rewrite Hc. auto. Qed.

Lemma seo_description_keeps_products L od title prefs sid :
  keeps (products_are L) (SEOService._get_optimized_description od title prefs sid).
Proof.
  pose proof (products_are_on_rows L) as Hrows.
  unfold SEOService._get_optimized_description, SEOService.get_active_prompt,
    SEOService.render_with_fallback, SEOService.render.
  repeat keeps_step; auto;
    first [ solve [intros w w' [H1 H2] Hc Hs; split; congruence]
          | solve [intros w l [H1 H2]; split; simpl; auto] ].
Qed.

Ltac rows_side :=
  first [ solve [intros ? ? [? ?] ? ?; split; congruence]
        | solve [intros ? ? [? ?]; split; simpl; auto]
        | solve [intros ? ? ? ? ?; unfold committed_products_are in *; congruence]
        | solve [intros ? ? ?; unfold committed_products_are in *; simpl; auto]
        | solve [auto using products_are_on_rows, committed_products_on_rows] ].

Lemma product_description_keeps_products L od title prefs :
  keeps (products_are L) (ProductService._get_optimized_description od title prefs).
Proof.
  unfold ProductService._get_optimized_description.
  repeat keeps_step; rows_side.
Qed.

Lemma mark_optimized_keeps_committed L product od :
  keeps (committed_products_are L) (SEOService.mark_optimized product od).
Proof.
  unfold SEOService.mark_optimized.
  repeat keeps_step; rows_side.
Qed.

Lemma keeps_as_triple {A} (I J : World -> Prop) (m : M A) :
  keeps I m -> (forall w, I w -> J w) -> triple I m (fun _ => I) (fun _ => J).
Proof. intros Hm HJ. eapply triple_weaken; [exact Hm | auto ..]. Qed.

Lemma keeps_from {A} (I J : World -> Prop) (m : M A) :
  keeps J m -> (forall w, I w -> J w) -> triple I m (fun _ => J) (fun _ => J).
Proof. intros Hm HJ. eapply triple_weaken; [exact Hm | auto ..]. Qed.

Lemma products_are_committed L w : products_are L w -> committed_products_are L w.
Proof. intros [_ H2]. exact H2. Qed.

Lemma item_post_error L msg code w :
  code = 404 \/ code = 500 -> products_are L w -> item_post L (error_response msg code) w.
Proof. intros Hc Hw. right. split; auto. exists msg, code. auto. Qed.

Lemma seo_optimize_body L user_id store_id product_id :
  triple (products_are L)
    (SEOService.optimize_product_description_try user_id store_id product_id)
    (item_post L) (fun _ => committed_products_are L).
Proof.
  unfold SEOService.optimize_product_description_try.
  eapply triple_bind.
  { apply keeps_as_triple; [keeps_step; rows_side | apply products_are_committed]. }
  intros [store|]; [|apply triple_ret; intros; apply item_post_error; auto].
  eapply triple_bind.
  { apply keeps_as_triple; [keeps_step; rows_side | apply products_are_committed]. }
  intros [product|]; [|apply triple_ret; intros; apply item_post_error; auto].
  eapply triple_bind.
  { apply keeps_as_triple;
      [apply seo_description_keeps_products | apply products_are_committed]. }
  intros od. eapply triple_bind.
  { apply keeps_from; [apply mark_optimized_keeps_committed | apply products_are_committed]. }
  intros product'. eapply triple_bind.
  { apply (triple_commit _ (fun _ => True) (committed_products_are L)); [auto|].
    intros w w' Hw Hc _. unfold committed_products_are in *. congruence. }
  intros u. apply triple_ret. intros w _. left. reflexivity.
Qed.

Lemma catching_rollback_untouched L (body : M Response) w resp w' :
  triple (products_are L) body (item_post L) (fun _ => committed_products_are L) ->
  products_are L w ->
  catching body rollback_500 w = (resp, w') ->
  resp.2 <> 200 ->
  is_error resp /\ products_are L w'.
Proof.
  intros Hbody Hw Hrun Hcode. unfold catching in Hrun.
  specialize (Hbody w Hw). destruct (body w) as [[r|e] w1].
  - inversion Hrun; subst. destruct Hbody as [H200|[He Hrows]]; [contradiction|auto].
  - unfold rollback_500 in Hrun. inversion Hrun; subst. split.
    + exists (exn_str e), 500. auto.
    + split; simpl; exact Hbody.
Qed.

Lemma assign_keeps_committed L t o k v :
  keeps (committed_products_are L) (assign t o k v).
Proof. keeps_step; rows_side. Qed.

Lemma product_optimize_body L user_id store_id product_id :
  triple (products_are L)
    (ProductService.optimize_product_description_try user_id store_id product_id)
    (item_post L) (fun _ => committed_products_are L).
Proof.
  unfold ProductService.optimize_product_description_try.
  eapply triple_bind.
  { apply keeps_as_triple; [keeps_step; rows_side | apply products_are_committed]. }
  intros [store|]; [|apply triple_ret; intros; apply item_post_error; auto].
  eapply triple_bind.
  { apply keeps_as_triple; [keeps_step; rows_side | apply products_are_committed]. }
  intros [product|]; [|apply triple_ret; intros; apply item_post_error; auto].
  eapply triple_bind.
  { apply keeps_as_triple;
      [apply product_description_keeps_products | apply products_are_committed]. }
  intros od. eapply triple_bind.
  { apply keeps_from; [apply assign_keeps_committed | apply products_are_committed]. }
  intros p1. eapply triple_bind; [apply assign_keeps_committed|].
  intros p2. eapply triple_bind; [apply assign_keeps_committed|].
  intros p3. eapply triple_bind; [apply keeps_now; rows_side|].
  intros t. eapply triple_bind; [apply assign_keeps_committed|].
  intros p4. eapply triple_bind; [apply assign_keeps_committed|].
  intros p5. eapply triple_bind.
  { apply (triple_commit _ (fun _ => True) (committed_products_are L)); [auto|].
    intros w w' Hw Hc _. unfold committed_products_are in *. congruence. }
  intros u. apply triple_ret. intros w _. left. reflexivity.
Qed.

Lemma find_product_ok product_id store_id w :
  db_fault (db_ops w) = None ->
  SEOService.find_product product_id store_id w =
  (Ok (List.find (fun o => has_id product_id o && attr_is_int o "store_id" store_id)
                 (products (session w))), after_roundtrip w).
Proof.
  intros Hf. unfold SEOService.find_product, query_first, bind, db_roundtrip.
  rewrite Hf. reflexivity.
Qed.

(** C6: when single-item optimization does not succeed, the caller gets an
    error reply and the product rows, in the session and as committed, are
    what they were: nothing of the item is written and its status is not
    changed.  In particular, once the store and the product are resolved,
    any exception of the description step (template lookup, rendering or
    the generation call) is answered with status 500 and the message of the
    exception.  This holds for [SEOService] and for [ProductService]. *)
Theorem failed_optimization_leaves_item :
  forall user_id store_id product_id w,
    products (session w) = products (committed w) ->
    (forall resp w',
       SEOService.optimize_product_description user_id store_id product_id w = (resp, w') ->
       resp.2 <> 200 -> is_error resp /\ products_untouched w w')
    /\ (forall resp w',
       ProductService.optimize_product_description user_id store_id product_id w = (resp, w') ->
       resp.2 <> 200 -> is_error resp /\ products_untouched w w')
    /\ (forall store product e w2,
       db_fault (db_ops w) = None -> db_fault (S (db_ops w)) = None ->
       List.find (fun o => has_id store_id o && attr_is_int o "user_id" user_id)
                 (stores (session w)) = Some store ->
       List.find (fun o => has_id product_id o && attr_is_int o "store_id" store_id)
                 (products (session w)) = Some product ->
       (SEOService._get_optimized_description (getattr product "original_description")
          (getattr product "title") (getattr store "prompt_preferences") store_id
          (after_roundtrip (after_roundtrip w)) = (Raise e, w2) ->
        SEOService.optimize_product_description user_id store_id product_id w
        = (error_response (exn_str e) 500, set_session (committed w2) w2))
       /\ (ProductService._get_optimized_description
             (py_or (getattr product "original_description") (getattr product "description"))
             (getattr product "title") (getattr store "prompt_preferences")
             (after_roundtrip (after_roundtrip w)) = (Raise e, w2) ->
           ProductService.optimize_product_description user_id store_id product_id w
           = (error_response (exn_str e) 500, set_session (committed w2) w2))).
Proof.
  intros user_id store_id product_id w Hclean.
  assert (Hw : products_are (products (session w)) w) by (split; auto).
  split; [|split].
  - intros resp w' Hrun Hcode.
    destruct (catching_rollback_untouched _ _ _ _ _
                (seo_optimize_body _ user_id store_id product_id) Hw Hrun Hcode)
      as [He [H1 H2]].
    split; [exact He|]. split; congruence.
  - intros resp w' Hrun Hcode.
    destruct (catching_rollback_untouched _ _ _ _ _
                (product_optimize_body _ user_id store_id product_id) Hw Hrun Hcode)
      as [He [H1 H2]].
    split; [exact He|]. split; congruence.
  - intros store product e w2 Hf1 Hf2 Hstore Hproduct. split; intros Hraise.
    + unfold SEOService.optimize_product_description, catching,
        SEOService.optimize_product_description_try, bind.
      rewrite find_store_ok, Hstore by assumption.
      rewrite find_product_ok by assumption.
      change (session (after_roundtrip w)) with (session w). rewrite Hproduct.
      rewrite Hraise. reflexivity.
    + unfold ProductService.optimize_product_description, catching,
        ProductService.optimize_product_description_try, bind.
      rewrite find_store_ok, Hstore by assumption.
      rewrite find_product_ok by assumption.
      change (session (after_roundtrip w)) with (session w). rewrite Hproduct.
      rewrite Hraise. reflexivity.
Qed.

End Isolation.

Section ActiveTemplate.
Context `{Env}.




Lemma lazy_default_no_template sid l : obj_attrs (lazy_default sid l) !! "template" = None.
Proof. vm_compute. reflexivity. Qed.

Lemma default_no_template sid : obj_attrs (Prompt.create_default_prompt sid) !! "template" = None.
Proof. vm_compute. reflexivity. Qed.


Lemma get_active_prompt_run sid w :
  SEOService.get_active_prompt sid w =
  match db_fault (db_ops w) with
  | Some msg => (Raise (error msg), after_roundtrip w)
  | None =>
      match List.find (SEOService.active_for sid) (prompts (session w)) with
      | Some p => (Ok p, after_roundtrip w)
      | None =>
          let p := lazy_default sid (prompts (session w)) in
          let w1 := with_prompt p (after_roundtrip w) in
          match db_fault (S (db_ops w)) with
          | Some msg => (Raise (error msg), after_roundtrip w1)
          | None => (Ok p, after_commit w1)
          end
      end
  end.
Proof.
  unfold SEOService.get_active_prompt, query_first, bind, db_roundtrip.
  destruct (db_fault (db_ops w)); [reflexivity|].
  destruct (List.find _ _); [reflexivity|].
  unfold session_add, commit, bind, db_roundtrip, ret.
  cbn [db_ops set_session].
  destruct (db_fault (S (db_ops w))); reflexivity.
Qed.




End ActiveTemplate.

Section Description.
Context `{Env}.

Lemma renders_app t1 t2 : renders (t1 ++ t2) = renders t1 ++ renders t2.
Proof. unfold renders. apply flat_map_app. Qed.

Lemma render_with_fallback_run sid prompt ctx w :
  SEOService.render_with_fallback sid prompt ctx w =
  match PromptService.render_prompt prompt ctx with
  | Ok text => (Ok (prompt, text), logged (EvRender prompt ctx) w)
  | Raise _ =>
      let dflt := Prompt.create_default_prompt sid in
      let w2 := logged (EvRender dflt ctx) (logged (EvRender prompt ctx) w) in
      match PromptService.render_prompt dflt ctx with
      | Ok text => (Ok (dflt, text), w2)
      | Raise e => (Raise e, w2)
      end
  end.
Proof.
  unfold SEOService.render_with_fallback, SEOService.render, try_except, bind, emit, lift, ret.
  destruct (PromptService.render_prompt prompt ctx); [reflexivity|].
  cbv zeta.
  destruct (PromptService.render_prompt (Prompt.create_default_prompt sid) ctx); reflexivity.
Qed.

Lemma get_active_prompt_counters sid w r w1 :
  SEOService.get_active_prompt sid w = (r, w1) ->
  trace w1 = trace w /\ gen_calls w1 = gen_calls w /\ clock_reads w1 = clock_reads w.
Proof.
  rewrite get_active_prompt_run.
  destruct (db_fault (db_ops w)); [intros Hr; inversion Hr; subst; auto|].
  destruct (List.find _ _); [intros Hr; inversion Hr; subst; auto|].
  cbv zeta. destruct (db_fault (S (db_ops w))); intros Hr; inversion Hr; subst; auto.
Qed.

(** When the active template of the store fails to render, the instance
    made by [create_default_prompt] is rendered in its place and nothing
    else is: the trace gains exactly these two render calls.  When that one
    fails too, the exception reaches the caller and the provider is not
    called. *)
Lemma render_falls_back_once :
  forall od title prefs store_id w prompt w1 ctx e1 r w',
    SEOService.get_active_prompt store_id w = (Ok prompt, w1) ->
    SEOService.build_context od title prefs = Ok ctx ->
    PromptService.render_prompt prompt ctx = Raise e1 ->
    SEOService._get_optimized_description od title prefs store_id w = (r, w') ->
    let dflt := Prompt.create_default_prompt store_id in
    renders (trace w') = renders (trace w) ++ [(prompt, ctx); (dflt, ctx)]
    /\ (forall e2,
          PromptService.render_prompt dflt ctx = Raise e2 ->
          r = Raise (error ("Failed to generate optimized description: " +:+ exn_str e2))
          /\ trace w' = trace w ++ [EvRender prompt ctx; EvRender dflt ctx]
          /\ gen_calls w' = gen_calls w).
Proof.
  intros od title prefs sid w prompt w1 ctx e1 r w' Hget Hctx Hr1 Hrun dflt.
  destruct (get_active_prompt_counters _ _ _ _ Hget) as (Htr & Hgen & _).
  unfold SEOService._get_optimized_description, try_except, bind in Hrun.
  rewrite Hget in Hrun. unfold lift in Hrun. rewrite Hctx in Hrun.
  rewrite render_with_fallback_run, Hr1 in Hrun. cbv zeta in Hrun. fold dflt in Hrun.
  destruct (PromptService.render_prompt dflt ctx) as [text|e2'] eqn:Hr2.
  - unfold call_generate in Hrun.
    destruct (generate_content _ _) as [reply|e3].
    + inversion Hrun; subst r w'; clear Hrun. split; [|intros e2 He2; discriminate].
      cbn [trace set_session logged]. rewrite !renders_app, Htr, <- !app_assoc. reflexivity.
    + inversion Hrun; subst r w'; clear Hrun. split; [|intros e2 He2; discriminate].
      cbn [trace set_session logged]. rewrite !renders_app, Htr, <- !app_assoc. reflexivity.
  - inversion Hrun; subst r w'; clear Hrun. cbn [trace gen_calls logged]. split.
    + rewrite !renders_app, Htr, <- !app_assoc. reflexivity.
    + intros e2 He2. inversion He2; subst. rewrite Htr, Hgen, <- app_assoc. auto.
Qed.

Lemma render_without_template p ctx :
  obj_attrs p !! "template" = None ->
  exists e, PromptService.render_prompt p ctx = Raise e.
Proof. intros Hn. unfold PromptService.render_prompt. rewrite Hn. eauto. Qed.

(** C1: the fallback is tried once and its failure reaches the caller,
    but what it renders is not the built-in body.  [create_default_prompt]
    stores the body under [response] and sets no [template], the attribute
    that [render_prompt] compiles: the second render raises whatever the
    body is, so a run whose active template fails to render always raises,
    after exactly two render calls and no call of the provider. *)
Theorem fallback_never_renders_builtin_body :
  forall od title prefs store_id w prompt w1 ctx e1,
    SEOService.get_active_prompt store_id w = (Ok prompt, w1) ->
    SEOService.build_context od title prefs = Ok ctx ->
    PromptService.render_prompt prompt ctx = Raise e1 ->
    let dflt := Prompt.create_default_prompt store_id in
    getattr dflt "response" = VStr Prompt.DEFAULT_TEMPLATE_BODY
    /\ obj_attrs dflt !! "template" = None
    /\ exists e2 w',
         PromptService.render_prompt dflt ctx = Raise e2
         /\ SEOService._get_optimized_description od title prefs store_id w
            = (Raise (error ("Failed to generate optimized description: " +:+ exn_str e2)),
               w')
         /\ trace w' = trace w ++ [EvRender prompt ctx; EvRender dflt ctx]
         /\ gen_calls w' = gen_calls w.
Proof.
  intros od title prefs sid w prompt w1 ctx e1 Hget Hctx Hr1 dflt.
  split; [vm_compute; reflexivity|]. split; [apply default_no_template|].
  destruct (render_without_template dflt ctx (default_no_template sid)) as [e2 He2].
  destruct (SEOService._get_optimized_description od title prefs sid w) as [r w'] eqn:Hrun.
  destruct (render_falls_back_once _ _ _ _ _ _ _ _ _ _ _ Hget Hctx Hr1 Hrun) as [_ Hfail].
  destruct (Hfail e2 He2) as (-> & Htrace & Hgen).
  exists e2, w'. auto.
Qed.

End Description.

Section Success.
Context `{Env}.

(** A successful run of [_get_optimized_description] found an active
    template that rendered, called the provider once and counted one use of
    that template. *)
Lemma seo_description_ok od title prefs sid w out w' :
  SEOService._get_optimized_description od title prefs sid w = (Ok out, w') ->
  exists tpl ctx prompt_text text,
    db_fault (db_ops w) = None
    /\ List.find (SEOService.active_for sid) (prompts (session w)) = Some tpl
    /\ SEOService.build_context od title prefs = Ok ctx
    /\ PromptService.render_prompt tpl ctx = Ok prompt_text
    /\ generate_content (gen_calls w) prompt_text = Ok text
    /\ out = ensure_html text
    /\ w' = after_description tpl ctx prompt_text w.
Proof.
  unfold SEOService._get_optimized_description, try_except, bind, generation_failed, raise.
  rewrite get_active_prompt_run.
  destruct (db_fault (db_ops w)) eqn:Hf; [discriminate|].
  destruct (List.find _ _) as [tpl|] eqn:Hfind.
  - unfold lift. destruct (SEOService.build_context od title prefs) as [ctx|] eqn:Hctx;
      [|discriminate].
    rewrite render_with_fallback_run.
    destruct (PromptService.render_prompt tpl ctx) as [prompt_text|e1] eqn:Hr1.
    + unfold call_generate. cbn [gen_calls logged after_roundtrip fst snd].
      destruct (generate_content (gen_calls w) prompt_text) as [text|] eqn:Hgen;
        [|discriminate].
      unfold store_obj, ret. intros Hrun. inversion Hrun; subst out w'; clear Hrun.
      exists tpl, ctx, prompt_text, text. repeat split; auto.
      unfold after_description, set_session. cbn [committed session gen_calls clock_reads
        db_ops http_calls trace logged after_roundtrip rows].
      rewrite <- app_assoc. reflexivity.
    + cbv zeta.
      destruct (render_without_template (Prompt.create_default_prompt sid) ctx
                  (default_no_template sid)) as [e2 He2].
      rewrite He2. discriminate.
  - cbv zeta. destruct (db_fault (S (db_ops w))); [discriminate|].
    unfold lift. destruct (SEOService.build_context od title prefs) as [ctx|]; [|discriminate].
    rewrite render_with_fallback_run.
    destruct (render_without_template (lazy_default sid (prompts (session w))) ctx
                (lazy_default_no_template sid _)) as [e1 He1].
    rewrite He1. cbv zeta.
    destruct (render_without_template (Prompt.create_default_prompt sid) ctx
                (default_no_template sid)) as [e2 He2].
    rewrite He2. discriminate.
Qed.













End Success.

Section Normalization.
Context `{Env}.

Lemma lstrip_head text c rest : lstrip text = String c rest -> isspace c = false.
Proof.
  induction text as [|a text IH]; simpl; [discriminate|].
  destruct (isspace a) eqn:Ha; [exact IH|].
  intros Heq. inversion Heq; subst. exact Ha.
Qed.

Lemma rstrip_head c rest :
  isspace c = false -> exists rest', rstrip (String c rest) = String c rest'.
Proof.
  intros Hc. simpl. destruct (rstrip rest); [rewrite Hc|]; eauto.
Qed.

Lemma startswith_head c rest : startswith "<" (String c rest) = Ascii.eqb "<" c.
Proof.
  unfold startswith.
  change (String.prefix "<" (String c rest))
    with (match ascii_dec "<" c with
          | left _ => String.prefix "" rest
          | right _ => false
          end).
  destruct (ascii_dec "<" c) as [Heq|Hne].
  - rewrite <- Heq, Ascii.eqb_refl. destruct rest; reflexivity.
  - symmetry. apply Ascii.eqb_neq. exact Hne.
Qed.

Lemma strip_starts text :
  startswith "<" (strip text) =
  match first_visible text with Some c => Ascii.eqb "<" c | None => false end.
Proof.
  unfold strip, first_visible. destruct (lstrip text) as [|c rest] eqn:Hl; [reflexivity|].
  destruct (rstrip_head c rest (lstrip_head _ _ _ Hl)) as [rest' ->].
  apply startswith_head.
Qed.

Lemma ensure_html_visible text :
  ensure_html text =
  match first_visible text with
  | Some c => if Ascii.eqb "<" c then text else "<p>" +:+ text +:+ "</p>"
  | None => "<p>" +:+ text +:+ "</p>"
  end.
Proof.
  unfold ensure_html. rewrite strip_starts.
  destruct (first_visible text) as [c|]; reflexivity.
Qed.

Lemma product_description_ok od title prefs w out w' :
  ProductService._get_optimized_description od title prefs w = (Ok out, w') ->
  exists prompt_text text,
    generate_content (gen_calls w) prompt_text = Ok text /\ out = ensure_html text.
Proof.
  unfold ProductService._get_optimized_description, try_except, bind, lift,
    generation_failed, raise, call_generate, ret.
  destruct (ProductService.add_guideline prefs "tone" _ _) as [p1|]; [|discriminate].
  destruct (ProductService.add_guideline prefs "length" _ _) as [p2|]; [|discriminate].
  destruct (str_format p2 title od) as [p3|]; [|discriminate].
  destruct (generate_content (gen_calls w) p3) as [text|] eqn:Hgen; [|discriminate].
  intros Hrun. inversion Hrun; subst. eauto.
Qed.

(** C8, as amended: what is stored is the provider's text unchanged when
    its first character that is not white space is the opening angle
    bracket, and the text between a paragraph's tags otherwise; "Hello
    world" is stored as a paragraph and "<div>Hi</div>" unchanged.  Both
    optimizers store the provider's text through this step. *)
Theorem output_normalization :
  (forall text,
     ensure_html text =
     match first_visible text with
     | Some c => if Ascii.eqb "<" c then text else "<p>" +:+ text +:+ "</p>"
     | None => "<p>" +:+ text +:+ "</p>"
     end)
  /\ ensure_html "Hello world" = "<p>Hello world</p>"
  /\ ensure_html "<div>Hi</div>" = "<div>Hi</div>"
  /\ (forall od title prefs sid w out w',
        SEOService._get_optimized_description od title prefs sid w = (Ok out, w') ->
        exists prompt_text text,
          generate_content (gen_calls w) prompt_text = Ok text /\ out = ensure_html text)
  /\ (forall od title prefs w out w',
        ProductService._get_optimized_description od title prefs w = (Ok out, w') ->
        exists prompt_text text,
          generate_content (gen_calls w) prompt_text = Ok text /\ out = ensure_html text).
Proof.
  split; [exact ensure_html_visible|].
  split; [reflexivity|]. split; [reflexivity|]. split.
  - intros od title prefs sid w out w' Hrun.
    destruct (seo_description_ok _ _ _ _ _ _ _ Hrun)
      as (tpl & ctx & prompt_text & text & _ & _ & _ & _ & Hgen & Hout & _).
    eauto.
  - exact product_description_ok.
Qed.

End Normalization.

(** The text " <div>Hi</div>" begins with a space and "<3 stars" with a
    bracket that opens no tag: neither begins with an open tag, and both are
    stored as they are, not as paragraphs. *)
Lemma texts_without_leading_tag_are_not_wrapped :
  spec_begins_with_tag " <div>Hi</div>" = false
  /\ ensure_html " <div>Hi</div>" = " <div>Hi</div>"
  /\ ensure_html " <div>Hi</div>" <> spec_normalized " <div>Hi</div>"
  /\ spec_begins_with_tag "<3 stars" = false
  /\ ensure_html "<3 stars" = "<3 stars"
  /\ ensure_html "<3 stars" <> spec_normalized "<3 stars".
Proof.
  split; [reflexivity|]. split; [reflexivity|]. split; [discriminate|].
  split; [reflexivity|]. split; [reflexivity|]. discriminate.
Qed.

Section Preferences.
Context `{Env}.






End Preferences.

Section Templates.
Context `{Env}.

















End Templates.

Section Batch.
Context `{Env}.



















End Batch.

(** ** The properties at concrete inputs *)


Lemma result_eta {A W} (r : result A * W) (a : result A) :
  r.1 = a -> r = (a, r.2).
Proof. destruct r as [x w]. cbn [fst snd]. intros ->. reflexivity. Qed.

(** Three products, the provider failing on the second: the reply has
    status 207, two optimized products and one error entry, for product 2,
    with the message; products 1 and 3 are optimized and product 2 is as it
    was. *)
Example three_items_second_fails :
  let r := SEOService.optimize_all_products (H := second_fails) 1 1 w_ready in
  r.1.2 = 207
  /\ map (fun p => item p "id") (elements_of (item r.1.1 "products")) = [VInt 1; VInt 3]
  /\ map (fun e => (item e "product_id", item e "error")) (elements_of (item r.1.1 "errors"))
     = [(VInt 2, VStr "Failed to generate optimized description: ProviderError")]
  /\ map (fun p => (getattr p "is_optimized", getattr p "optimized_description"))
         (products (committed r.2))
     = [(VBool true, VStr "<p>Hello world</p>"); (VNone, VNone);
        (VBool true, VStr "<p>Hello world</p>")]
  /\ map row_of (products (committed r.2)) !! 1%nat = Some (row_of (demo_product 2 "B")).
Proof. cbv zeta. repeat split; vm_compute; reflexivity. Qed.

(** A store whose active template does not compile: the built-in body
    would compile and render in this environment, and the run raises all the
    same, the provider not being called. *)
Lemma fallback_never_renders_builtin_body_witness :
  let r := SEOService._get_optimized_description (H := working)
             (VStr "plain") (VStr "A") (VDict ∅) 1 w_broken in
  @jinja2_Template working (VStr Prompt.DEFAULT_TEMPLATE_BODY) = None
  /\ (exists text,
        @template_render working (VStr Prompt.DEFAULT_TEMPLATE_BODY) demo_context = Ok text)
  /\ r.1 = Raise (error ("Failed to generate optimized description: "
                         +:+ "Failed to render prompt template: "
                         +:+ "'Prompt' object has no attribute 'template'"))
  /\ gen_calls r.2 = gen_calls w_broken.
Proof.
  cbv zeta.
  split; [vm_compute; reflexivity|]. split; [eexists; reflexivity|].
  destruct (fallback_never_renders_builtin_body (H := working)
              (VStr "plain") (VStr "A") (VDict ∅) 1 w_broken
              (demo_prompt "{% if") (after_roundtrip w_broken) demo_context
              (error "Failed to render prompt template: unexpected end of template"))
    as (_ & _ & e2 & w' & He2 & Hrun & _ & Hgen).
  - rewrite get_active_prompt_run. reflexivity.
  - reflexivity.
  - vm_compute. reflexivity.
  - rewrite Hrun. cbn [fst snd]. split; [|exact Hgen].
    assert (He : e2 = error ("Failed to render prompt template: "
                             +:+ "'Prompt' object has no attribute 'template'")).
    { unfold PromptService.render_prompt in He2.
      rewrite default_no_template in He2. congruence. }
    rewrite He. reflexivity.
Defined.



Lemma failed_optimization_leaves_item_witness :
  let r := SEOService.optimize_product_description (H := failing) 1 1 1 w_ready in
  is_error r.1 /\ products_untouched w_ready r.2.
Proof.
  cbv zeta.
  apply (proj1 (failed_optimization_leaves_item (H := failing) 1 1 1 w_ready eq_refl)).
  - apply surjective_pairing.
  - intros Hcode. vm_compute in Hcode. discriminate.
Defined.



Lemma output_normalization_witness :
  let r := ProductService._get_optimized_description (H := working)
             (VStr "plain") (VStr "A") (VDict ∅) w_ready in
  exists prompt_text text,
    @generate_content working 0%nat prompt_text = Ok text
    /\ r.1 = Ok (ensure_html text).
Proof.
  cbv zeta.
  set (r := ProductService._get_optimized_description (H := working)
              (VStr "plain") (VStr "A") (VDict ∅) w_ready).
  assert (Hrun : r = (Ok "<p>Hello world</p>", r.2))
    by (apply result_eta; vm_compute; reflexivity).
  destruct (proj2 (proj2 (proj2 (proj2 (output_normalization (H := working)))))
              (VStr "plain") (VStr "A") (VDict ∅) w_ready _ _ Hrun)
    as (prompt_text & text & Hgen & Hout).
  exists prompt_text, text. split; [exact Hgen|]. rewrite Hrun, Hout. reflexivity.
Defined.

Lemma update_preferences_requires_fields_witness :
  exists f w',
    first_missing_is PromptService.required_fields emotion_only f
    /\ PromptService.update_prompt_preferences (H := working) 1 1 emotion_only w_voice
       = (error_response ("Missing required field: " +:+ f) 400, w')
    /\ session w' = session w_voice
    /\ committed w' = committed w_voice.
Proof.
  apply (update_preferences_requires_fields (H := working) 1 1 emotion_only w_voice
           (demo_store (VDict (dict_of [("brand_voice", professional_voice)])))).
  - reflexivity.
  - reflexivity.
  - exists "tone". split; [|reflexivity]. unfold PromptService.required_fields.
    apply list_elem_of_here.
Defined.






